(** * SearchForm: the booking-session coordinator of kisesa-express-web

  A shallow embedding of [src/components/SearchForm.js] (React component
  [SearchForm]): the form state, [validateForm], [handleSubmit] with its
  [try]/[catch], the [onClose] callback handed to the SafariYetu widget, the
  development mock timer and the unmount effect.

  The component imports the class [SafariYetuScrollManager] from
  [../utils/safariYetuScrollManager]; that file is not among the sources
  embedded here, and its operations are modelled from the specification
  (module [ScrollManager]). *)

From Stdlib Require Import String Ascii ZArith Lia.
From stdpp Require Import base list strings.

Open Scope string_scope.
Open Scope list_scope.
Open Scope nat_scope.

(** ** JavaScript primitives used by the component *)

Module Js.

(** [!!s] for a string: only the empty string is falsy. *)
Definition truthy (s : string) : bool :=
  match s with
  | EmptyString => false
  | String _ _ => true
  end.

(** [s.includes(sub)]. *)
Fixpoint includes (s sub : string) : bool :=
  String.prefix sub s ||
  match s with
  | EmptyString => false
  | String _ s' => includes s' sub
  end.

(** White space skipped by [parseInt] (the ASCII part of StrWhiteSpaceChar). *)
Definition isWhiteSpace (c : ascii) : bool :=
  let n := nat_of_ascii c in
  (n =? 32)%nat || ((9 <=? n)%nat && (n <=? 13)%nat).

Fixpoint trimStart (s : string) : string :=
  match s with
  | String c s' => if isWhiteSpace c then trimStart s' else s
  | EmptyString => EmptyString
  end.

(** Value of a digit in the given radix, if it is one. *)
Definition digitValue (radix : Z) (c : ascii) : option Z :=
  let n := Z.of_nat (nat_of_ascii c) in
  let v := (if (48 <=? n) && (n <=? 57) then n - 48
            else if (97 <=? n) && (n <=? 122) then n - 87
            else if (65 <=? n) && (n <=? 90) then n - 55
            else 36)%Z in
  if (v <? radix)%Z then Some v else None.

(** The longest prefix of digits, accumulated; [None] when there is none. *)
Fixpoint digits (radix : Z) (acc : option Z) (s : string) : option Z :=
  match s with
  | EmptyString => acc
  | String c s' =>
      match digitValue radix c with
      | Some v => digits radix (Some (default 0 acc * radix + v)%Z) s'
      | None => acc
      end
  end.

(** [parseInt(s)] with no radix argument; [None] is [NaN].  The result is
    the exact integer, which is the JavaScript number for magnitudes up to
    2^53; of the white space [parseInt] skips, the ASCII characters are
    covered (not U+00A0, U+FEFF and the other Unicode spaces). *)
Definition parseInt (s : string) : option Z :=
  let s1 := trimStart s in
  let '(sign, s2) :=
    match s1 with
    | String "-" r => ((-1)%Z, r)
    | String "+" r => (1%Z, r)
    | _ => (1%Z, s1)
    end in
  let '(radix, s3) :=
    match s2 with
    | String "0" (String "x" r) => (16%Z, r)
    | String "0" (String "X" r) => (16%Z, r)
    | _ => (10%Z, s2)
    end in
  (λ n, sign * n)%Z <$> digits radix None s3.

(** A thrown value of which [message] can be read and tested, as far as the
    handler can tell such values apart: an [Error], another object or a
    primitive other than [undefined] and [null].  [message] is [Some s] when
    the property is the string [s], and [None] when it is absent or another
    falsy value. *)
Record Error := { message : option string }.

Definition mkError (msg : string) : Error := {| message := Some msg |}.

(** Any value a [catch] clause can receive.  [Nullish] is [undefined] or
    [null], of which no property can be read.  [OddMessage] is a value whose
    [message] is truthy, not a string and without an [includes] method (a
    number, [true], a plain object).  A [message] with an [includes] method
    of its own that is not a string (an array) is not covered. *)
Inductive Thrown :=
| Nullish
| OddMessage
| Object (e : Error).

End Js.

(** ** The scroll-lock manager *)

Module ScrollManager.

Inductive ScrollLockState := Unlocked | Locked.

#[export] Instance ScrollLockState_eq_dec : EqDecision ScrollLockState.
Proof. solve_decision. Defined.

(** Modelled from the spec: the class SafariYetuScrollManager
    (utils/safariYetuScrollManager.js) is missing.  An instance is in state
    Unlocked or Locked, owns monitoring resources while a dialog is open,
    and is permanently inert once cleaned up. *)
Record Manager := {
  lockState : ScrollLockState;
  monitoring : bool;
  inert : bool
}.

(** Modelled from the spec: the missing [createInstance()] gives a new
    manager in Unlocked state; construction has no side effects on the
    document. *)
Definition createInstance : Manager :=
  {| lockState := Unlocked; monitoring := false; inert := false |}.

(** Modelled from the spec: the missing [disableScroll()] transitions
    Unlocked to Locked, is idempotent while Locked, and is a no-op on an
    inert instance. *)
Definition disableScroll (m : Manager) : Manager :=
  if inert m then m
  else {| lockState := Locked; monitoring := monitoring m; inert := false |}.

(** Modelled from the spec: the missing [enableScroll()] transitions Locked
    to Unlocked, is idempotent while Unlocked, and is a no-op on an inert
    instance. *)
Definition enableScroll (m : Manager) : Manager :=
  if inert m then m
  else {| lockState := Unlocked; monitoring := monitoring m; inert := false |}.

(** Modelled from the spec: the missing [cleanup()] is terminal: it forces
    [enableScroll()] if Locked, releases the monitoring resources and marks
    the instance permanently inert. *)
Definition cleanup (m : Manager) : Manager :=
  if inert m then m
  else {| lockState := Unlocked;
          monitoring := false;
          inert := true |}.

(** Modelled from the spec: the synchronous part of the missing
    [openBookingDialog(bookingData)].  The specification does not name the
    method; it is taken to do what its session steps leave to the manager
    between the creation of the instance and the invocation of the widget:
    scroll is disabled (step 2) and the presence monitor started (step 4).
    A no-op on an inert instance. *)
Definition openBookingDialog (m : Manager) : Manager :=
  if inert m then m
  else {| lockState := Locked;
          monitoring := true;
          inert := false |}.

(** Whether the presence monitor of [m] can still fire. *)
Definition live (m : Manager) : bool := monitoring m && negb (inert m).

(** Number of instances in state Locked. *)
Definition lockedCount (ms : list Manager) : nat :=
  length (filter (λ m, lockState m = Locked) ms).

End ScrollManager.

Export ScrollManager.

(** ** The component state *)

(** [formData]: the four raw field values, all strings. *)
Record FormData := {
  from : string;
  to : string;
  date : string;
  passengers : string
}.

(** [e.target.name] of the four form controls. *)
Inductive Field := FieldFrom | FieldTo | FieldDate | FieldPassengers.

(** The object handed to the widget.  Its [onClose] property is the same
    closure over the state setters at every submission; it is [onClose]
    below.  [passengersCount] is [None] for [NaN]. *)
Record BookingData := {
  origin : string;
  destination : string;
  departureDate : string;
  passengersCount : option Z
}.

(** What [handleSubmit] reads from its surroundings:
    [typeof window.safariplus !== 'undefined'] and [process.env.NODE_ENV]. *)
Record Env := {
  safariplus : bool;
  NODE_ENV : string
}.

(** Observable calls, in the order they are made. *)
Inductive Effect :=
| PreventDefault
| ReplaceState
| SetFormData (fd : FormData)
| SetError (msg : string)
| SetIsLoading (b : bool)
| SetIsBookingDialogOpen (b : bool)
| SetCurrentBookingData (d : option BookingData)
| CallCreateInstance (i : nat)
| CallDisableScroll (i : nat)
| CallEnableScroll (i : nat)
| CallCleanup (i : nat)
| CallOpenBookingDialog (i : nat) (d : BookingData)
| SetTimeout (ms : nat)
| Alert (msg : string)
| ConsoleLog (msg : string)
| ConsoleError (e : Js.Error)
| ConsoleErrorValue (v : Js.Thrown).

(** The React state of the component ([useState], [useRef], the parent's
    dialog flag behind [setIsBookingDialogOpen]), the manager instances ever
    created (an instance is its index), and the calls made so far, newest
    first. *)
Record World := {
  formData : FormData;
  isLoading : bool;
  error : string;
  currentBookingData : option BookingData;
  isBookingDialogOpen : bool;
  scrollManagerRef : option nat;
  managers : list Manager;
  log : list Effect
}.

Definition initialWorld : World := {|
  formData := {| from := ""; to := ""; date := ""; passengers := "1" |};
  isLoading := false;
  error := "";
  currentBookingData := None;
  isBookingDialogOpen := false;
  scrollManagerRef := None;
  managers := [];
  log := []
|}.

(** The calls in chronological order. *)
Definition trace (w : World) : list Effect := rev (log w).

(** ** Statements with exceptions over the world *)

Inductive Completion (A : Type) :=
| Normal (a : A)
| Throw (e : Js.Error).
Arguments Normal {A} a.
Arguments Throw {A} e.

Definition Action (A : Type) : Type := World → Completion A * World.

#[export] Instance Action_ret : MRet Action := λ A a w, (Normal a, w).

#[export] Instance Action_bind : MBind Action := λ A B k m w,
  match m w with
  | (Normal a, w') => k a w'
  | (Throw e, w') => (Throw e, w')
  end.

Definition throw {A} (e : Js.Error) : Action A := λ w, (Throw e, w).

Definition tryCatch {A} (body : Action A) (handler : Js.Error → Action A)
  : Action A := λ w,
  match body w with
  | (Normal a, w') => (Normal a, w')
  | (Throw e, w') => handler e w'
  end.

Definition gets {A} (f : World → A) : Action A := λ w, (Normal (f w), w).

Definition modify (f : World → World) : Action unit := λ w, (Normal tt, f w).

(** The world an action leaves behind. *)
Definition exec {A} (m : Action A) (w : World) : World := snd (m w).

Definition emit (e : Effect) (w : World) : World :=
  {| formData := formData w; isLoading := isLoading w; error := error w;
     currentBookingData := currentBookingData w;
     isBookingDialogOpen := isBookingDialogOpen w;
     scrollManagerRef := scrollManagerRef w; managers := managers w;
     log := e :: log w |}.

Definition setFormData (fd : FormData) : Action unit :=
  modify (λ w,
    {| formData := fd; isLoading := isLoading w; error := error w;
       currentBookingData := currentBookingData w;
       isBookingDialogOpen := isBookingDialogOpen w;
       scrollManagerRef := scrollManagerRef w; managers := managers w;
       log := SetFormData fd :: log w |}).

Definition setIsLoading (b : bool) : Action unit :=
  modify (λ w,
    {| formData := formData w; isLoading := b; error := error w;
       currentBookingData := currentBookingData w;
       isBookingDialogOpen := isBookingDialogOpen w;
       scrollManagerRef := scrollManagerRef w; managers := managers w;
       log := SetIsLoading b :: log w |}).

Definition setError (msg : string) : Action unit :=
  modify (λ w,
    {| formData := formData w; isLoading := isLoading w; error := msg;
       currentBookingData := currentBookingData w;
       isBookingDialogOpen := isBookingDialogOpen w;
       scrollManagerRef := scrollManagerRef w; managers := managers w;
       log := SetError msg :: log w |}).

Definition setCurrentBookingData (d : option BookingData) : Action unit :=
  modify (λ w,
    {| formData := formData w; isLoading := isLoading w; error := error w;
       currentBookingData := d;
       isBookingDialogOpen := isBookingDialogOpen w;
       scrollManagerRef := scrollManagerRef w; managers := managers w;
       log := SetCurrentBookingData d :: log w |}).

Definition setIsBookingDialogOpen (b : bool) : Action unit :=
  modify (λ w,
    {| formData := formData w; isLoading := isLoading w; error := error w;
       currentBookingData := currentBookingData w;
       isBookingDialogOpen := b;
       scrollManagerRef := scrollManagerRef w; managers := managers w;
       log := SetIsBookingDialogOpen b :: log w |}).

(** [scrollManagerRef.current = r]. *)
Definition setScrollManagerRef (r : option nat) : Action unit :=
  modify (λ w,
    {| formData := formData w; isLoading := isLoading w; error := error w;
       currentBookingData := currentBookingData w;
       isBookingDialogOpen := isBookingDialogOpen w;
       scrollManagerRef := r; managers := managers w;
       log := log w |}).

(** A method call on instance [i]: the instance changes as the manager
    says, and the call is recorded. *)
Definition callManager (e : Effect) (f : Manager → Manager) (i : nat)
  : Action unit :=
  modify (λ w,
    {| formData := formData w; isLoading := isLoading w; error := error w;
       currentBookingData := currentBookingData w;
       isBookingDialogOpen := isBookingDialogOpen w;
       scrollManagerRef := scrollManagerRef w;
       managers := alter f i (managers w);
       log := e :: log w |}).

(** [SafariYetuScrollManager.createInstance()]: a fresh instance, whose
    identity is returned. *)
Definition newManager : Action nat := λ w,
  (Normal (length (managers w)),
   {| formData := formData w; isLoading := isLoading w; error := error w;
      currentBookingData := currentBookingData w;
      isBookingDialogOpen := isBookingDialogOpen w;
      scrollManagerRef := scrollManagerRef w;
      managers := managers w ++ [ScrollManager.createInstance];
      log := CallCreateInstance (length (managers w)) :: log w |}).

Definition disableScroll (i : nat) : Action unit :=
  callManager (CallDisableScroll i) ScrollManager.disableScroll i.

Definition enableScroll (i : nat) : Action unit :=
  callManager (CallEnableScroll i) ScrollManager.enableScroll i.

Definition cleanup (i : nat) : Action unit :=
  callManager (CallCleanup i) ScrollManager.cleanup i.

Definition openBookingDialog (i : nat) (d : BookingData) : Action unit :=
  callManager (CallOpenBookingDialog i d) ScrollManager.openBookingDialog i.

(** Reading [scrollManagerRef.current] to call a method on it: a
    [TypeError] when it is [null]. *)
Definition current : Action nat := λ w,
  match scrollManagerRef w with
  | Some i => (Normal i, w)
  | None => (Throw (Js.mkError "Cannot read properties of null"), w)
  end.

(** ** The handlers of [SearchForm] *)

Section SearchForm.

(** [t] of [useLanguage()]: the translation of a message key. *)
Context (t : string → string).

(** [handleInputChange]: the field named by the control is replaced, and a
    visible error is cleared. *)
Definition handleInputChange (name : Field) (value : string) : Action unit :=
  prev ← gets formData;
  err ← gets error;
  setFormData
    match name with
    | FieldFrom => {| from := value; to := to prev; date := date prev;
                      passengers := passengers prev |}
    | FieldTo => {| from := from prev; to := value; date := date prev;
                    passengers := passengers prev |}
    | FieldDate => {| from := from prev; to := to prev; date := value;
                      passengers := passengers prev |}
    | FieldPassengers => {| from := from prev; to := to prev;
                            date := date prev; passengers := value |}
    end;;
  if Js.truthy err then setError "" else mret tt.

(** The effect that reads the URL on mount: [fromParam] and [toParam] are
    the query parameters ([None] when absent) and [today] is
    [new Date().toISOString().split('T')[0]]. *)
Definition urlPrefill (fromParam toParam : option string) (today : string)
  : Action unit :=
  if Js.truthy (default "" fromParam) || Js.truthy (default "" toParam) then
    prev ← gets formData;
    setFormData {| from := default "" fromParam; to := default "" toParam;
                   date := today; passengers := passengers prev |};;
    modify (emit ReplaceState)
  else mret tt.

(** The [onClick] of a popular-route button. *)
Definition quickLink (from' to' today : string) : Action unit :=
  prev ← gets formData;
  setFormData {| from := from'; to := to'; date := today;
                 passengers := passengers prev |};;
  setError "".

(** [validateForm]: the first check that fails sets its message and
    returns [false]. *)
Definition validateForm : Action bool :=
  fd ← gets formData;
  if negb (Js.truthy (from fd)) then
    setError (t "selectDepartureError");; mret false
  else if negb (Js.truthy (to fd)) then
    setError (t "selectDestinationError");; mret false
  else if String.eqb (from fd) (to fd) then
    setError (t "differentCitiesError");; mret false
  else if negb (Js.truthy (date fd)) then
    setError (t "selectDateError");; mret false
  else if negb (Js.truthy (passengers fd)) then
    setError (t "selectPassengersError");; mret false
  else mret true.

(** The input of world [w] passes [validateForm]. *)
Definition accepted (w : World) : Prop := (validateForm w).1 = Normal true.

(** The input of world [w] fails [validateForm]. *)
Definition rejected (w : World) : Prop := (validateForm w).1 = Normal false.

(** The [onClose] property of [bookingData]. *)
Definition onClose : Action unit :=
  modify (emit (ConsoleLog "SafariYetu dialog closed via callback"));;
  setIsBookingDialogOpen false;;
  setIsLoading false;;
  setCurrentBookingData None;;
  setError "".

(** The [bookingData] object literal. *)
Definition bookingData (fd : FormData) : BookingData :=
  {| origin := from fd;
     destination := to fd;
     departureDate := date fd;
     passengersCount := Js.parseInt (passengers fd) |}.

(** Lines "Clean up any existing scroll manager". *)
Definition cleanupExisting : Action unit :=
  r ← gets scrollManagerRef;
  match r with
  | Some i => cleanup i
  | None => mret tt
  end.

(** The [try] block up to the check of [window.safariplus]. *)
Definition prepareSession : Action BookingData :=
  fd ← gets formData;
  let d := bookingData fd in
  i ← newManager;
  setScrollManagerRef (Some i);;
  setIsLoading true;;
  setIsBookingDialogOpen true;;
  setCurrentBookingData (Some d);;
  mret d.

Definition loadingMessage : string :=
  "SafariYetu booking system is loading. Please try again in a moment.".

(** The rest of the [try] block: the development mock, the error thrown
    when the widget is not loaded, or the dialog opened by the manager;
    [await] suspends there. *)
Definition invokeWidget (env : Env) (d : BookingData) : Action unit :=
  if negb (safariplus env) then
    if String.eqb (NODE_ENV env) "development" then
      i ← current;
      disableScroll i;;
      modify (emit (SetTimeout 1500))
    else
      throw (Js.mkError loadingMessage)
  else
    i ← current;
    openBookingDialog i d.

(** The [catch] block. *)
Definition catchBlock (e : Js.Error) : Action unit :=
  modify (emit (ConsoleError e));;
  match Js.message e with
  | Some msg =>
      if Js.truthy msg && Js.includes msg "loading" then
        setError
          (if Js.truthy msg then msg
           else "Unable to load booking system. Please try again.")
      else setError ""
  | None => setError ""
  end;;
  r ← gets scrollManagerRef;
  match r with
  | Some i => cleanup i;; setScrollManagerRef None
  | None => mret tt
  end;;
  setIsLoading false;;
  setIsBookingDialogOpen false;;
  setCurrentBookingData None.

(** The [catch] block for any value: on [undefined] and [null] reading
    [error.message], and on an odd message calling [includes], raises a
    [TypeError] right after [console.error]; the rest of the block is not
    run. *)
Definition catchThrown (v : Js.Thrown) : Action unit :=
  match v with
  | Js.Object e => catchBlock e
  | Js.Nullish =>
      modify (emit (ConsoleErrorValue v));;
      throw (Js.mkError "Cannot read properties of undefined")
  | Js.OddMessage =>
      modify (emit (ConsoleErrorValue v));;
      throw (Js.mkError "error.message.includes is not a function")
  end.

(** [handleSubmit], up to the point where it returns or awaits the dialog. *)
Definition handleSubmit (env : Env) : Action unit :=
  modify (emit PreventDefault);;
  setError "";;
  ok ← validateForm;
  if negb ok then mret tt
  else
    cleanupExisting;;
    tryCatch (d ← prepareSession; invokeWidget env d) catchBlock.

(** What [handleSubmit] does once validation has passed. *)
Definition session (env : Env) : Action unit :=
  cleanupExisting;;
  tryCatch (d ← prepareSession; invokeWidget env d) catchBlock.

(** The world in which [validateForm] runs for a submission in [w]. *)
Definition submitted (w : World) : World :=
  exec (setError "") (emit PreventDefault w).

Definition nl : string := String (ascii_of_nat 10) "".

(** The callback given to [setTimeout] in the development mock; [fd] is the
    [formData] of the submission that set the timer. *)
Definition mockTimeout (fd : FormData) : Action unit :=
  modify (emit (Alert
    ("Mock Booking Dialog:" +:+ nl +:+ "From: " +:+ from fd +:+ nl +:+
     "To: " +:+ to fd +:+ nl +:+ "Date: " +:+ date fd +:+ nl +:+
     "Passengers: " +:+ passengers fd +:+ nl +:+ nl +:+
     "In production, this would open SafariYetu booking system.")));;
  r ← gets scrollManagerRef;
  match r with
  | Some i => enableScroll i;; cleanup i
  | None => mret tt
  end;;
  setIsLoading false;;
  setIsBookingDialogOpen false;;
  setCurrentBookingData None.

(** The cleanup of the unmount effect. *)
Definition unmount : Action unit :=
  r ← gets scrollManagerRef;
  match r with
  | Some i => cleanup i;; setScrollManagerRef None
  | None => mret tt
  end.

(** Modelled from the spec: the presence monitor lives in the missing
    manager.  When the monitor of instance [i] detects that the widget has
    vanished it performs the same reset as the closure callback and releases
    the lock manager; it does nothing once the instance is inert. *)
Definition monitorDetect (i : nat) : Action unit :=
  ms ← gets managers;
  match ms !! i with
  | Some m => if ScrollManager.live m then cleanup i;; onClose else mret tt
  | None => mret tt
  end.

(** ** The event loop *)

(** What can happen to a mounted component, one event at a time.  The
    awaited dialog either stays pending or is rejected with some value,
    which resumes [handleSubmit] in its [catch] block. *)
Inductive Event :=
| UrlPrefill (fromParam toParam : option string) (today : string)
| InputChange (name : Field) (value : string)
| QuickLink (from' to' today : string)
| Submit (env : Env)
| DialogRejected (v : Js.Thrown)
| WidgetClosed
| MonitorDetected (i : nat)
| MockTimeout (fd : FormData)
| Unmount.

Definition step (ev : Event) : World → World :=
  match ev with
  | UrlPrefill fromParam toParam today =>
      exec (urlPrefill fromParam toParam today)
  | InputChange name value => exec (handleInputChange name value)
  | QuickLink from' to' today => exec (quickLink from' to' today)
  | Submit env => exec (handleSubmit env)
  | DialogRejected v => exec (catchThrown v)
  | WidgetClosed => exec onClose
  | MonitorDetected i => exec (monitorDetect i)
  | MockTimeout fd => exec (mockTimeout fd)
  | Unmount => exec unmount
  end.

(** The world after the events of [evs], oldest first. *)
Definition run (evs : list Event) (w : World) : World :=
  foldl (λ w ev, step ev w) w evs.

End SearchForm.

(** ** The specification's wording of validation and of a trip request *)

(** The five checks of the specification, in its order. *)
Inductive Rule :=
| OriginPresent
| DestinationPresent
| CitiesDiffer
| DatePresent
| PassengersPresent.

Definition checksInOrder : list Rule :=
  [OriginPresent; DestinationPresent; CitiesDiffer; DatePresent;
   PassengersPresent].

Definition passes (fd : FormData) (c : Rule) : bool :=
  match c with
  | OriginPresent => negb (String.eqb (from fd) "")
  | DestinationPresent => negb (String.eqb (to fd) "")
  | CitiesDiffer => negb (String.eqb (from fd) (to fd))
  | DatePresent => negb (String.eqb (date fd) "")
  | PassengersPresent => negb (String.eqb (passengers fd) "")
  end.

(** The key of the user-facing message of each check. *)
Definition messageKey (c : Rule) : string :=
  match c with
  | OriginPresent => "selectDepartureError"
  | DestinationPresent => "selectDestinationError"
  | CitiesDiffer => "differentCitiesError"
  | DatePresent => "selectDateError"
  | PassengersPresent => "selectPassengersError"
  end.

(** First failure wins: the first check of the list that does not pass. *)
Definition firstFailure (fd : FormData) : option Rule :=
  List.find (λ c, negb (passes fd c)) checksInOrder.

Definition isDigit (c : ascii) : bool :=
  let n := nat_of_ascii c in (48 <=? n)%nat && (n <=? 57)%nat.

Definition digit (c : ascii) : nat := nat_of_ascii c - 48.

Definition isLeapYear (y : nat) : bool :=
  ((y mod 4 =? 0) && negb (y mod 100 =? 0) || (y mod 400 =? 0))%nat.

Definition daysInMonth (y m : nat) : nat :=
  match m with
  | 2 => if isLeapYear y then 29 else 28
  | 4 | 6 | 9 | 11 => 30
  | _ => 31
  end.

(** A calendar date as the date control writes it: [YYYY-MM-DD]. *)
Definition isCalendarDate (s : string) : bool :=
  match list_ascii_of_string s with
  | [y1; y2; y3; y4; "-"%char; m1; m2; "-"%char; d1; d2] =>
      forallb isDigit [y1; y2; y3; y4; m1; m2; d1; d2] &&
      let y := digit y1 * 1000 + digit y2 * 100 + digit y3 * 10 + digit y4 in
      let m := digit m1 * 10 + digit m2 in
      let d := digit d1 * 10 + digit d2 in
      ((1 <=? m) && (m <=? 12) && (1 <=? d) && (d <=? daysInMonth y m))%nat
  | _ => false
  end.

(** The invariant of a TripRequest in the words of the specification, for a
    given day [today] (written [YYYY-MM-DD]; such dates are ordered as
    strings). *)
Definition TripRequestInvariant (today : string) (d : BookingData) : Prop :=
  origin d ≠ "" ∧
  destination d ≠ "" ∧
  origin d ≠ destination d ∧
  isCalendarDate (departureDate d) = true ∧
  String.leb today (departureDate d) = true ∧
  ∃ n : Z, passengersCount d = Some n ∧ (0 < n)%Z.

(** The values of the options of the passengers control. *)
Definition passengerOptions : list string :=
  ["1"; "2"; "3"; "4"; "5"; "6"; "7"; "8"; "9"; "10"].

(** ** The single-lock invariant *)

(** No instance is Locked. *)
Definition AllUnlocked (ms : list Manager) : Prop :=
  Forall (λ m, lockState m = Unlocked) ms.

(** Only instance [k] may be Locked. *)
Definition OnlyLocked (k : nat) (ms : list Manager) : Prop :=
  ∀ i m, ms !! i = Some m → lockState m = Locked → i = k.

(** Whatever is Locked is the instance the component refers to. *)
Definition SingleLock (w : World) : Prop :=
  match scrollManagerRef w with
  | Some k => OnlyLocked k (managers w)
  | None => AllUnlocked (managers w)
  end.


(** A world in which no session is open. *)
Definition resolved (w : World) : Prop :=
  isLoading w = false ∧ isBookingDialogOpen w = false ∧
  currentBookingData w = None ∧ AllUnlocked (managers w).

(** The three sources of a session's resolution. *)
Inductive Source :=
| ClosureCallback
| PresenceMonitor (i : nat)
| ErrorPath (v : Js.Thrown).

Definition fire (s : Source) : World → World :=
  match s with
  | ClosureCallback => exec onClose
  | PresenceMonitor i => exec (monitorDetect i)
  | ErrorPath v => exec (catchThrown v)
  end.


(** ** Soundness of instances and the invariant of the component *)

(** An inert instance has released scroll and monitor. *)
Definition Sound (m : Manager) : Prop :=
  inert m = true → lockState m = Unlocked ∧ monitoring m = false.

(** The operations that can only release the lock. *)
Inductive Releasing : (Manager → Manager) → Prop :=
| Releasing_enableScroll : Releasing ScrollManager.enableScroll
| Releasing_cleanup : Releasing ScrollManager.cleanup.

(** The operations of the manager. *)
Inductive Method : (Manager → Manager) → Prop :=
| Method_releasing f : Releasing f → Method f
| Method_disableScroll : Method ScrollManager.disableScroll
| Method_openBookingDialog : Method ScrollManager.openBookingDialog.

Create HintDb locks discriminated.
#[local] Hint Constructors Releasing Method : locks.

(** The reference, when set, is to an instance that exists. *)
Definition RefValid (w : World) : Prop :=
  ∀ k, scrollManagerRef w = Some k → k < length (managers w).

(** Instances are sound, whatever is Locked is the referenced one, and the
    reference is valid. *)
Definition Inv (w : World) : Prop :=
  Forall Sound (managers w) ∧ SingleLock w ∧ RefValid w.

(** Unfolds the statements of a handler down to the worlds they build. *)
Ltac run_actions :=
  cbv beta iota zeta delta
    [step fire urlPrefill quickLink handleInputChange handleSubmit validateForm onClose
     cleanupExisting prepareSession invokeWidget catchBlock catchThrown
     mockTimeout
     unmount monitorDetect newManager current
     disableScroll enableScroll cleanup openBookingDialog callManager
     setFormData setIsLoading setError setCurrentBookingData
     setIsBookingDialogOpen setScrollManagerRef emit
     mbind mret Action_bind Action_ret gets modify throw tryCatch exec
     fst snd
     formData isLoading error currentBookingData isBookingDialogOpen
     scrollManagerRef managers log];
  cbn [safariplus NODE_ENV Js.message Js.mkError].

(** Splits on a condition that the statements are stuck on. *)
Ltac case_cond :=
  match goal with
  | |- context [if ?c then _ else _] =>
      lazymatch c with
      | context [if _ then _ else _] => fail
      | context [match _ with _ => _ end] => fail
      | _ => destruct c eqn:?
      end
  | |- context [match ?c with Some _ => _ | None => _ end] =>
      lazymatch c with
      | context [if _ then _ else _] => fail
      | context [match _ with _ => _ end] => fail
      | _ => destruct c eqn:?
      end
  | |- context [match ?c with
                | Js.Nullish => _
                | Js.OddMessage => _
                | Js.Object _ => _
                end] => is_var c; destruct c
  end.

(** Runs a handler on a world given by its fields, branch by branch. *)
Ltac run_handler := run_actions; repeat (case_cond; run_actions).

(** Closes the branches whose conditions contradict each other. *)
Ltac absurd_branch :=
  try (cbn in *; congruence);
  try match goal with
      | H : Js.truthy loadingMessage && _ = false |- _ => by vm_compute in H
      | H : Js.truthy loadingMessage = false |- _ => by vm_compute in H
      end.

(** Puts the calls of a world, given by its fields, in chronological
    order. *)
Ltac chronological :=
  unfold trace; cbn [log rev]; rewrite <- ?app_assoc, ?length_alter;
  cbn [app].

(** ** Concrete sessions *)

(** A traveller fills in the form. *)
Definition fillForm : list Event :=
  [InputChange FieldFrom "mwanza"; InputChange FieldTo "kahama";
   InputChange FieldDate "2026-11-02"].

(** The widget script has loaded. *)
Definition production : Env :=
  {| safariplus := true; NODE_ENV := "production" |}.

(** The widget script has not loaded yet. *)
Definition productionNotLoaded : Env :=
  {| safariplus := false; NODE_ENV := "production" |}.

(** The world with an open booking dialog. *)
Definition openSession : World :=
  run id (fillForm ++ [Submit production]) initialWorld.

(** Whether a call is [disableScroll()]. *)
Definition isDisableScroll (e : Effect) : bool :=
  match e with
  | CallDisableScroll _ => true
  | _ => false
  end.

(** ** The rest of the component: tables, views and what it keeps *)

(** [formData[name]]. *)
Definition getField (name : Field) (fd : FormData) : string :=
  match name with
  | FieldFrom => from fd
  | FieldTo => to fd
  | FieldDate => date fd
  | FieldPassengers => passengers fd
  end.

(** The [value]s of [popularRoutes], the options of both city controls. *)
Definition popularRoutes : list string :=
  ["mwanza"; "dar-es-salaam"; "kahama"; "moshi"].

(** [from] and [to] of the three popular-route buttons. *)
Definition quickRoutes : list (string * string) :=
  [("mwanza", "dar-es-salaam"); ("dar-es-salaam", "mwanza");
   ("mwanza", "kahama")].

(** The text of the mock dialog. *)
Definition mockMessage (fd : FormData) : string :=
  "Mock Booking Dialog:" +:+ nl +:+ "From: " +:+ from fd +:+ nl +:+
  "To: " +:+ to fd +:+ nl +:+ "Date: " +:+ date fd +:+ nl +:+
  "Passengers: " +:+ passengers fd +:+ nl +:+ nl +:+
  "In production, this would open SafariYetu booking system.".

(** A development build without the widget script. *)
Definition development : Env :=
  {| safariplus := false; NODE_ENV := "development" |}.

(** A query parameter that is absent or empty. *)
Definition blank (param : option string) : Prop :=
  param = None ∨ param = Some "".


(** Created instances are numbered in order, and each is the referenced one
    or has had [cleanup()] called on it. *)
Definition Tracked (w : World) : Prop :=
  (∀ i, CallCreateInstance i ∈ log w ↔ i < length (managers w)) ∧
  (∀ i, i < length (managers w) →
        scrollManagerRef w = Some i ∨ CallCleanup i ∈ log w).

(** Among [ms], an instance that is not inert is the one [r] refers to. *)
Definition OrphanFree (r : option nat) (ms : list Manager) : Prop :=
  ∀ i m, ms !! i = Some m → inert m = false → r = Some i.

(** ** The primitives on samples *)

Example parseInt_samples :
  Js.parseInt "1" = Some 1%Z ∧ Js.parseInt "10" = Some 10%Z ∧
  Js.parseInt "0" = Some 0%Z ∧ Js.parseInt " -7px" = Some (-7)%Z ∧
  Js.parseInt "abc" = None ∧ Js.parseInt "" = None ∧
  Js.parseInt "0x1f" = Some 31%Z.
Proof. repeat split. Qed.

Example includes_samples :
  Js.includes loadingMessage "loading" = true ∧
  Js.includes "Loading chunk 5 failed" "loading" = false ∧
  Js.includes "" "loading" = false ∧ Js.includes "abc" "" = true.
Proof. repeat split. Qed.

Example isCalendarDate_samples :
  isCalendarDate "2026-11-02" = true ∧ isCalendarDate "2024-02-29" = true ∧
  isCalendarDate "2026-02-29" = false ∧ isCalendarDate "2026-13-01" = false ∧
  isCalendarDate "tomorrow" = false.
Proof. repeat split. Qed.

(** ** Facts about manager instances *)

Lemma not_Locked (s : ScrollLockState) : s ≠ Locked ↔ s = Unlocked.
Proof. destruct s; split; congruence. Qed.

Lemma Sound_createInstance : Sound ScrollManager.createInstance.
Proof. intros H; discriminate H. Qed.

Lemma Sound_method f m : Method f → Sound m → Sound (f m).
Proof.
  intros Hf Hm.
  destruct Hf as [f [] | | ]; destruct m as [s mon []];
    unfold Sound in *; cbn in *; intuition congruence.
Qed.

Lemma releasing_Locked f m :
  Releasing f → lockState (f m) = Locked → lockState m = Locked.
Proof. intros [] ; destruct m as [s mon []]; cbn; congruence. Qed.

Lemma releasing_Unlocked f m :
  Releasing f → lockState m = Unlocked → lockState (f m) = Unlocked.
Proof.
  intros Hf Hm. apply not_Locked. intros HL.
  apply (releasing_Locked f m Hf) in HL. congruence.
Qed.

Lemma cleanup_Unlocked m :
  Sound m → lockState (ScrollManager.cleanup m) = Unlocked.
Proof.
  destruct m as [s mon []]; cbn; [|done]. intros H. by destruct H.
Qed.

Lemma cleanup_inert m : inert (ScrollManager.cleanup m) = true.
Proof. by destruct m as [s mon []]. Qed.

Lemma disableScroll_idempotent m :
  ScrollManager.disableScroll (ScrollManager.disableScroll m) =
  ScrollManager.disableScroll m.
Proof. by destruct m as [s mon []]. Qed.

Lemma enableScroll_idempotent m :
  ScrollManager.enableScroll (ScrollManager.enableScroll m) =
  ScrollManager.enableScroll m.
Proof. by destruct m as [s mon []]. Qed.

Lemma cleanup_cleanup m :
  ScrollManager.cleanup (ScrollManager.cleanup m) = ScrollManager.cleanup m.
Proof. by destruct m as [s mon []]. Qed.

Lemma inert_method f m : Method f → inert m = true → f m = m.
Proof.
  intros Hf Hm. destruct Hf as [f [] | | ]; destruct m as [s mon i];
    cbn in *; by rewrite Hm.
Qed.

(** *** Lists of instances *)

Lemma AllUnlocked_lookup ms :
  AllUnlocked ms ↔ ∀ i m, ms !! i = Some m → lockState m = Unlocked.
Proof. apply Forall_lookup. Qed.

Lemma AllUnlocked_OnlyLocked k ms : AllUnlocked ms → OnlyLocked k ms.
Proof.
  intros H i m Hi HL. rewrite AllUnlocked_lookup in H.
  specialize (H i m Hi). congruence.
Qed.

Lemma AllUnlocked_create ms :
  AllUnlocked ms → AllUnlocked (ms ++ [ScrollManager.createInstance]).
Proof. intros H. apply Forall_app. split; [done|]. by repeat constructor. Qed.

Lemma Sound_create ms :
  Forall Sound ms → Forall Sound (ms ++ [ScrollManager.createInstance]).
Proof.
  intros H. apply Forall_app. split; [done|].
  constructor; [apply Sound_createInstance | constructor].
Qed.

Lemma Sound_alter f i ms :
  Method f → Forall Sound ms → Forall Sound (alter f i ms).
Proof. intros Hf H. apply Forall_alter; [done|]. intros. by apply Sound_method. Qed.

Lemma AllUnlocked_alter f i ms :
  Releasing f → AllUnlocked ms → AllUnlocked (alter f i ms).
Proof.
  intros Hf H. apply Forall_alter; [done|]. intros. by apply releasing_Unlocked.
Qed.

Lemma OnlyLocked_alter f i k ms :
  Releasing f → OnlyLocked k ms → OnlyLocked k (alter f i ms).
Proof.
  intros Hf H j m Hj HL. destruct (decide (i = j)) as [->|Hne].
  - rewrite list_lookup_alter_eq in Hj.
    destruct (ms !! j) as [m0|] eqn:E; [|done]. cbn in Hj.
    injection Hj as <-. apply (H j m0 E). by eapply releasing_Locked.
  - rewrite list_lookup_alter_ne in Hj by done. by apply (H j m).
Qed.

Lemma OnlyLocked_alter_self f k ms :
  AllUnlocked ms → OnlyLocked k (alter f k ms).
Proof.
  intros H j m Hj HL. destruct (decide (k = j)) as [->|Hne]; [done|].
  rewrite list_lookup_alter_ne in Hj by done.
  rewrite AllUnlocked_lookup in H. specialize (H j m Hj). congruence.
Qed.

Lemma OnlyLocked_cleanup k ms :
  Forall Sound ms → OnlyLocked k ms →
  AllUnlocked (alter ScrollManager.cleanup k ms).
Proof.
  intros HS H. apply AllUnlocked_lookup. intros j m Hj.
  destruct (decide (k = j)) as [->|Hne].
  - rewrite list_lookup_alter_eq in Hj.
    destruct (ms !! j) as [m0|] eqn:E; [|done]. cbn in Hj.
    injection Hj as <-. apply cleanup_Unlocked.
    rewrite Forall_lookup in HS. by apply (HS j).
  - rewrite list_lookup_alter_ne in Hj by done.
    apply not_Locked. intros HL. by specialize (H j m Hj HL).
Qed.

Lemma lockedCount_cons m ms :
  lockedCount (m :: ms) =
  (if decide (lockState m = Locked) then 1 else 0) + lockedCount ms.
Proof. unfold lockedCount. rewrite filter_cons. by case_decide. Qed.

Lemma lockedCount_AllUnlocked ms : AllUnlocked ms ↔ lockedCount ms = 0.
Proof.
  induction ms as [|m ms IH].
  - split; [done|]. intros _. constructor.
  - rewrite lockedCount_cons. unfold AllUnlocked in *. rewrite Forall_cons.
    case_decide as Hm.
    + split; [|lia]. intros [H _]. congruence.
    + apply not_Locked in Hm. rewrite IH. cbn. tauto.
Qed.

Lemma OnlyLocked_tail k m ms :
  OnlyLocked k (m :: ms) →
  match k with
  | 0 => AllUnlocked ms
  | S k' => lockState m = Unlocked ∧ OnlyLocked k' ms
  end.
Proof.
  intros H. destruct k as [|k'].
  - apply AllUnlocked_lookup. intros i x Hi. apply not_Locked. intros HL.
    by specialize (H (S i) x Hi HL).
  - split.
    + apply not_Locked. intros HL. by specialize (H 0 m eq_refl HL).
    + intros i x Hi HL. specialize (H (S i) x Hi HL). lia.
Qed.

Lemma lockedCount_OnlyLocked k ms : OnlyLocked k ms → lockedCount ms ≤ 1.
Proof.
  revert k. induction ms as [|m ms IH]; intros k H; [cbn; lia|].
  rewrite lockedCount_cons. apply OnlyLocked_tail in H.
  destruct k as [|k'].
  - apply lockedCount_AllUnlocked in H. rewrite H. case_decide; lia.
  - destruct H as [Hm H]. apply IH in H. rewrite decide_False by congruence.
    lia.
Qed.

(** ** The handlers keep the single-lock invariant *)

#[local] Hint Resolve Sound_alter Sound_create AllUnlocked_alter
  AllUnlocked_create OnlyLocked_alter OnlyLocked_alter_self
  OnlyLocked_cleanup AllUnlocked_OnlyLocked : locks.

Lemma Inv_AllUnlocked_after_cleanup w :
  Inv w →
  AllUnlocked
    (match scrollManagerRef w with
     | Some k => alter ScrollManager.cleanup k (managers w)
     | None => managers w
     end).
Proof.
  intros (HS & HL & _). unfold SingleLock in HL.
  destruct (scrollManagerRef w); auto with locks.
Qed.

Lemma Inv_lockedCount w : Inv w → lockedCount (managers w) ≤ 1.
Proof.
  intros (_ & H & _). unfold SingleLock in H. destruct (scrollManagerRef w).
  - by eapply lockedCount_OnlyLocked.
  - apply lockedCount_AllUnlocked in H. lia.
Qed.

Lemma Inv_initialWorld : Inv initialWorld.
Proof. split; [constructor|split; [constructor|done]]. Qed.

Section Preservation.

Context (t : string → string).

Lemma Inv_step ev w : Inv w → Inv (step t ev w).
Proof.
  intros HI. pose proof (Inv_AllUnlocked_after_cleanup w HI) as HC.
  destruct HI as (HS & HL & HR). unfold SingleLock in HL.
  destruct w as [fd ld err bd dlg ref ms lg]. cbn in HS, HL, HC.
  unfold RefValid in HR. cbn in HR.
  destruct ev; run_handler.
  all: split; [cbn; auto with locks|split].
  all: try (unfold RefValid; cbn; intros k Hk; simplify_eq;
            rewrite ?length_alter, ?length_app, ?length_alter; cbn;
            solve [auto | lia]).
  all: unfold SingleLock; cbn; try rewrite length_app; auto with locks.
  destruct ref; auto with locks.
Qed.

Lemma Inv_run evs w : Inv w → Inv (run t evs w).
Proof.
  revert w. induction evs as [|ev evs IH]; intros w HI; [done|].
  cbn. apply IH. by apply Inv_step.
Qed.

Lemma Inv_reachable evs : Inv (run t evs initialWorld).
Proof. apply Inv_run, Inv_initialWorld. Qed.

End Preservation.

(** ** Validation *)

Section Validation.

Context (t : string → string).

Lemma truthy_eqb s : Js.truthy s = negb (String.eqb s "").
Proof. by destruct s. Qed.

Lemma validateForm_firstFailure w :
  validateForm t w =
  match firstFailure (formData w) with
  | Some c => (Normal false, exec (setError (t (messageKey c))) w)
  | None => (Normal true, w)
  end.
Proof.
  destruct w as [[f t' d p] ld err bd dlg ref ms lg].
  run_actions.
  cbv [firstFailure List.find checksInOrder passes from to date passengers].
  destruct (String.eqb f t') eqn:E.
  all: destruct f as [|a f], t' as [|a' t'], d as [|b d], p as [|b' p];
    reflexivity.
Qed.

Lemma accepted_firstFailure w : accepted t w ↔ firstFailure (formData w) = None.
Proof.
  unfold accepted. rewrite validateForm_firstFailure.
  destruct (firstFailure (formData w)); cbn; split; congruence.
Qed.

Lemma rejected_firstFailure w :
  rejected t w ↔ ∃ c, firstFailure (formData w) = Some c.
Proof.
  unfold rejected. rewrite validateForm_firstFailure.
  destruct (firstFailure (formData w)); cbn; split; try congruence; eauto.
  intros [c Hc]. congruence.
Qed.

Lemma accepted_fields w :
  accepted t w →
  from (formData w) ≠ "" ∧ to (formData w) ≠ "" ∧
  from (formData w) ≠ to (formData w) ∧
  date (formData w) ≠ "" ∧ passengers (formData w) ≠ "".
Proof.
  rewrite accepted_firstFailure.
  destruct (formData w) as [f t' d p].
  cbv [firstFailure List.find checksInOrder passes from to date passengers].
  destruct (String.eqb_spec f ""); [done|].
  destruct (String.eqb_spec t' ""); [done|].
  destruct (String.eqb_spec f t'); [done|].
  destruct (String.eqb_spec d ""); [done|].
  destruct (String.eqb_spec p ""); [done|].
  done.
Qed.

(** C6. Validation is ordered, first failure wins: on every form input
    [validateForm] reports exactly the message of the first check, in the
    order origin present, destination present, origin differs from
    destination, date present, passenger count present, that fails, and
    nothing else; when both cities are the same non-empty value that check
    is the third and its message is "differentCitiesError". *)
Theorem validation_first_failure_wins (w : World) :
  validateForm t w =
    match List.find (λ c, negb (passes (formData w) c))
            [OriginPresent; DestinationPresent; CitiesDiffer; DatePresent;
             PassengersPresent] with
    | Some c => (Normal false, exec (setError (t (messageKey c))) w)
    | None => (Normal true, w)
    end
  ∧ (∀ a city d p,
       firstFailure {| from := String a city; to := String a city;
                       date := d; passengers := p |} = Some CitiesDiffer)
  ∧ messageKey CitiesDiffer = "differentCitiesError".
Proof.
  split; [apply validateForm_firstFailure|]. split; [|done].
  intros a city d p.
  cbv [firstFailure List.find checksInOrder passes from to date passengers].
  rewrite String.eqb_refl. reflexivity.
Qed.

End Validation.

(** ** Submission *)

Section Submission.

Context (t : string → string).

Lemma handleSubmit_unfold env w :
  handleSubmit t env w =
  match validateForm t (submitted w) with
  | (Normal ok, w') => (if negb ok then mret tt else session env) w'
  | (Throw e, w') => (Throw e, w')
  end.
Proof. reflexivity. Qed.

Lemma handleSubmit_accepted env w :
  accepted t w → handleSubmit t env w = session env (submitted w).
Proof.
  intros H. rewrite handleSubmit_unfold, validateForm_firstFailure.
  apply accepted_firstFailure in H.
  change (formData (submitted w)) with (formData w). by rewrite H.
Qed.

Lemma handleSubmit_rejected env w c :
  firstFailure (formData w) = Some c →
  handleSubmit t env w =
  (Normal tt, exec (setError (t (messageKey c))) (submitted w)).
Proof.
  intros H. rewrite handleSubmit_unfold, validateForm_firstFailure.
  change (formData (submitted w)) with (formData w). by rewrite H.
Qed.

(** C7. Validation failure is free of side effects: when the input is
    rejected by validation, [handleSubmit] changes nothing but the error
    message; it only calls [preventDefault] and [setError], so that no lock
    manager is created or locked, the widget is not invoked, and loading and
    dialog-open are unchanged.  With [from] missing the message is that of
    "selectDepartureError". *)
Theorem validation_failure_changes_only_error (env : Env) (w : World) :
  rejected t w →
  ∃ msg,
    exec (handleSubmit t env) w =
      {| formData := formData w;
         isLoading := isLoading w;
         error := msg;
         currentBookingData := currentBookingData w;
         isBookingDialogOpen := isBookingDialogOpen w;
         scrollManagerRef := scrollManagerRef w;
         managers := managers w;
         log := SetError msg :: SetError "" :: PreventDefault :: log w |}
    ∧ (from (formData w) = "" → msg = t "selectDepartureError").
Proof.
  intros H. apply rejected_firstFailure in H as [c Hc].
  exists (t (messageKey c)). unfold exec.
  rewrite (handleSubmit_rejected env w c Hc). split; [reflexivity|].
  intros Hf. revert Hc. unfold firstFailure, checksInOrder. cbn.
  rewrite Hf. cbn. by intros [= <-].
Qed.


(** C4. A valid input submitted in production while the widget global is
    not available: [handleSubmit] raises the widget-unavailable error and
    rolls the prepared session back.  Loading and dialog-open are set to
    true and then to false, the new lock manager is cleaned up and the
    reference cleared, no instance is left Locked, and the error message
    shown is the non-empty message of that error. *)
Theorem widget_unavailable_rolls_back (evs : list Event) (env : Env) :
  let w := run t evs initialWorld in
  accepted t w →
  safariplus env = false →
  NODE_ENV env ≠ "development" →
  let w' := exec (handleSubmit t env) w in
  let n := length (managers w) in
  let d := bookingData (formData w) in
  trace w' =
    trace w ++ [PreventDefault; SetError ""] ++
    match scrollManagerRef w with Some i => [CallCleanup i] | None => [] end ++
    [CallCreateInstance n; SetIsLoading true; SetIsBookingDialogOpen true;
     SetCurrentBookingData (Some d);
     ConsoleError (Js.mkError loadingMessage); SetError loadingMessage;
     CallCleanup n; SetIsLoading false; SetIsBookingDialogOpen false;
     SetCurrentBookingData None]
  ∧ isLoading w' = false
  ∧ isBookingDialogOpen w' = false
  ∧ currentBookingData w' = None
  ∧ scrollManagerRef w' = None
  ∧ managers w' !! n =
      Some {| lockState := Unlocked; monitoring := false; inert := true |}
  ∧ lockedCount (managers w') = 0
  ∧ error w' = loadingMessage
  ∧ error w' ≠ "".
Proof.
  intros w Hacc Hsp Hne w' n d.
  pose proof (Inv_reachable t evs) as HI. fold w in HI.
  pose proof (Inv_AllUnlocked_after_cleanup w HI) as HC.
  subst w' n d. unfold exec. rewrite (handleSubmit_accepted env w Hacc).
  clear Hacc HI. clearbody w.
  apply String.eqb_neq in Hne.
  destruct w as [fd ld err bd dlg ref ms lg], env as [sp ne].
  cbn in Hsp, Hne, HC. subst sp.
  unfold session, submitted. run_handler; absurd_branch.
  all: chronological.
  all: repeat split; try done.
  all: try (rewrite list_lookup_alter_eq, lookup_app_r, ?length_alter,
            Nat.sub_diag by (rewrite ?length_alter; lia); reflexivity).
  all: apply lockedCount_AllUnlocked; auto with locks.
Qed.


Lemma lookup_created (ms ms' : list Manager) (m : Manager) :
  length ms' = length ms → (ms' ++ [m]) !! length ms = Some m.
Proof. intros <-. by rewrite lookup_app_r, Nat.sub_diag by lia. Qed.

(** C9, as the code has it.  For a submission whose input passes
    validation, what is done before [window.safariplus] is checked is: clean
    up the stale lock manager if there is one, create a new manager (which
    is Unlocked), set loading to true, set dialog-open to true and store the
    booking data.  Scroll is not disabled by then: it is disabled after the
    check, by the development mock or by the manager when it opens the
    dialog, and not at all when the widget is unavailable in production. *)
Theorem prepare_session_steps (evs : list Event) (env : Env) :
  let w := run t evs initialWorld in
  accepted t w →
  let w1 := exec (cleanupExisting;; prepareSession) (submitted w) in
  let n := length (managers w) in
  let d := bookingData (formData w) in
  trace w1 =
    trace (submitted w) ++
    match scrollManagerRef w with Some i => [CallCleanup i] | None => [] end ++
    [CallCreateInstance n; SetIsLoading true; SetIsBookingDialogOpen true;
     SetCurrentBookingData (Some d)]
  ∧ isLoading w1 = true
  ∧ isBookingDialogOpen w1 = true
  ∧ currentBookingData w1 = Some d
  ∧ scrollManagerRef w1 = Some n
  ∧ managers w1 !! n = Some ScrollManager.createInstance
  ∧ lockedCount (managers w1) = 0
  ∧ handleSubmit t env w = tryCatch (invokeWidget env d) catchBlock w1
  ∧ trace (exec (handleSubmit t env) w) =
      trace w1 ++
      if safariplus env then [CallOpenBookingDialog n d]
      else if String.eqb (NODE_ENV env) "development"
      then [CallDisableScroll n; SetTimeout 1500]
      else [ConsoleError (Js.mkError loadingMessage); SetError loadingMessage;
            CallCleanup n; SetIsLoading false; SetIsBookingDialogOpen false;
            SetCurrentBookingData None].
Proof.
  intros w Hacc w1 n d.
  pose proof (Inv_reachable t evs) as HI. fold w in HI.
  pose proof (Inv_AllUnlocked_after_cleanup w HI) as HC.
  subst w1 n d. unfold exec. rewrite (handleSubmit_accepted env w Hacc).
  clear Hacc HI. clearbody w.
  destruct w as [fd ld err bd dlg ref ms lg], env as [sp ne].
  cbn in HC. unfold session, submitted.
  destruct ref as [i|], sp, (String.eqb ne "development") eqn:Hne.
  all: run_handler; absurd_branch.
  all: chronological.
  all: repeat split; try done.
  all: try (apply lookup_created; by rewrite ?length_alter).
  all: apply lockedCount_AllUnlocked; auto with locks.
Qed.

(** C1. At most one manager instance is Locked at any time: after any
    sequence of events the number of Locked instances is at most one; and a
    submission that passes validation while a manager is still referenced
    calls [cleanup()] on that manager before the new instance is created, so
    that no instance is Locked when the new one is made and at most one is
    afterwards. *)
Theorem at_most_one_locked_manager (evs : list Event) (env : Env) :
  let w := run t evs initialWorld in
  lockedCount (managers w) ≤ 1
  ∧ ∀ i, scrollManagerRef w = Some i → accepted t w →
      (∃ rest,
         trace (exec (handleSubmit t env) w) =
           trace w ++
           [PreventDefault; SetError ""; CallCleanup i;
            CallCreateInstance (length (managers w))] ++ rest)
      ∧ lockedCount (managers (exec cleanupExisting (submitted w))) = 0
      ∧ lockedCount (managers (exec (handleSubmit t env) w)) ≤ 1.
Proof.
  intros w. pose proof (Inv_reachable t evs) as HI. fold w in HI.
  split; [by apply Inv_lockedCount|]. intros i Hi Hacc.
  pose proof (Inv_lockedCount _ (Inv_step t (Submit env) w HI)) as Hle.
  cbn [step] in Hle.
  pose proof (Inv_AllUnlocked_after_cleanup w HI) as HC.
  split; [|split; [|done]].
  - clear Hle. unfold exec. rewrite (handleSubmit_accepted env w Hacc).
    clear Hacc HI. clearbody w.
    destruct w as [fd ld err bd dlg ref ms lg], env as [sp ne].
    cbn in Hi, HC. subst ref. unfold session, submitted.
    destruct sp, (String.eqb ne "development") eqn:Hne.
    all: run_handler; absurd_branch.
    all: chronological; eexists; reflexivity.
  - clear Hle Hacc HI. clearbody w.
    destruct w as [fd ld err bd dlg ref ms lg].
    cbn in Hi, HC. subst ref. unfold submitted. run_handler.
    cbn. by apply lockedCount_AllUnlocked.
Qed.

End Submission.

(** ** Resolution of a session *)



Lemma lookup_cleanup i (ms : list Manager) m :
  Forall Sound ms → ms !! i = Some m →
  ∃ m', alter ScrollManager.cleanup i ms !! i = Some m' ∧
        lockState m' = Unlocked ∧ inert m' = true.
Proof.
  intros HS Hi. exists (ScrollManager.cleanup m).
  rewrite list_lookup_alter_eq, Hi. split; [done|].
  rewrite Forall_lookup in HS.
  split; [apply cleanup_Unlocked; by apply (HS i)|apply cleanup_inert].
Qed.

Section Resolution.

Context (t : string → string).

(** C3, as the code has it.  When the closure callback fires, dialog-open
    and loading are set to false and the session data and the error message
    are cleared, in that order; the lock manager and the reference to it are
    left as they are.  Firing it again changes no field of the state. *)
Theorem closure_callback_resets_ui_only (w : World) :
  let w' := exec onClose w in
  w' = {| formData := formData w;
          isLoading := false;
          error := "";
          currentBookingData := None;
          isBookingDialogOpen := false;
          scrollManagerRef := scrollManagerRef w;
          managers := managers w;
          log := SetError "" :: SetCurrentBookingData None ::
                 SetIsLoading false :: SetIsBookingDialogOpen false ::
                 ConsoleLog "SafariYetu dialog closed via callback" ::
                 log w |}
  ∧ exec onClose w' =
      {| formData := formData w';
         isLoading := isLoading w';
         error := error w';
         currentBookingData := currentBookingData w';
         isBookingDialogOpen := isBookingDialogOpen w';
         scrollManagerRef := scrollManagerRef w';
         managers := managers w';
         log := SetError "" :: SetCurrentBookingData None ::
                SetIsLoading false :: SetIsBookingDialogOpen false ::
                ConsoleLog "SafariYetu dialog closed via callback" ::
                log w' |}.
Proof. split; reflexivity. Qed.



(** C10. Unmounting a component that holds a manager reference calls
    [cleanup()] on that manager and clears the reference; the instance ends
    Unlocked and inert and no instance is left Locked. *)
Theorem unmount_releases_lock (evs : list Event) (i : nat) :
  let w := run t evs initialWorld in
  scrollManagerRef w = Some i →
  let w' := exec unmount w in
  trace w' = trace w ++ [CallCleanup i]
  ∧ scrollManagerRef w' = None
  ∧ managers w' = alter ScrollManager.cleanup i (managers w)
  ∧ (∃ m, managers w' !! i = Some m ∧ lockState m = Unlocked ∧
          inert m = true)
  ∧ lockedCount (managers w') = 0.
Proof.
  intros w Hi w'. pose proof (Inv_reachable t evs) as HI. fold w in HI.
  pose proof (Inv_AllUnlocked_after_cleanup w HI) as HC.
  destruct HI as (HS & _ & HR). specialize (HR i Hi).
  subst w'. clearbody w.
  destruct w as [fd ld err bd dlg ref ms lg]. cbn in Hi, HC, HS, HR.
  subst ref. run_handler. chronological. repeat split.
  - apply lookup_lt_is_Some in HR as [m Hm]. by eapply lookup_cleanup.
  - by apply lockedCount_AllUnlocked.
Qed.

End Resolution.

(** ** The trip request *)

Section TripRequest.

Context (t : string → string).

(** C8, as the code has it.  For an input accepted by validation the
    booking data handed to the widget has a non-empty origin and a non-empty
    destination that differ, the date string of the form, which is not
    empty, and as passenger count [parseInt] of the passengers string, which
    is not empty; the count is an integer from 1 to 10 when that string is
    one of the options of the passengers control.  Validation checks neither
    that the date is a calendar date, nor that it is today or later, nor
    that the count is positive. *)
Theorem accepted_trip_request (w : World) (env : Env) :
  accepted t w →
  let fd := formData w in
  let d := bookingData fd in
  origin d ≠ "" ∧ destination d ≠ "" ∧ origin d ≠ destination d
  ∧ departureDate d = date fd ∧ date fd ≠ ""
  ∧ passengersCount d = Js.parseInt (passengers fd) ∧ passengers fd ≠ ""
  ∧ (passengers fd ∈ passengerOptions →
     ∃ n, passengersCount d = Some n ∧ (1 ≤ n ≤ 10)%Z)
  ∧ (safariplus env = true →
     head (log (exec (handleSubmit t env) w)) =
       Some (CallOpenBookingDialog (length (managers w)) d)).
Proof.
  intros Hacc fd d.
  destruct (accepted_fields t w Hacc) as (Hf & Ht & Hft & Hd & Hp).
  repeat split; try done.
  - subst d. cbn. intros Hin. unfold passengerOptions in Hin.
    repeat (apply elem_of_cons in Hin as [Hin | Hin];
            [rewrite Hin; eexists; split; [vm_compute; reflexivity|lia]|]).
    by apply elem_of_nil in Hin.
  - intros Hsp. unfold exec. rewrite (handleSubmit_accepted t env w Hacc).
    subst fd d. clear Hacc Hf Ht Hft Hd Hp.
    destruct w as [fd ld err bd dlg ref ms lg], env as [sp ne].
    cbn in Hsp. subst sp. unfold session, submitted.
    run_handler; absurd_branch; cbn; by rewrite ?length_alter.
Qed.

End TripRequest.

(** ** The claims on concrete sessions *)

Lemma not_in_trace (P : Effect → bool) (l : list Effect) (e : Effect) :
  forallb (λ x, negb (P x)) l = true → P e = true → e ∉ l.
Proof.
  intros Hl He Hin. apply list_elem_of_In in Hin.
  rewrite forallb_forall in Hl. specialize (Hl e Hin). by rewrite He in Hl.
Qed.

(** C1 at a second submission while the first dialog is open. *)
Lemma at_most_one_locked_manager_witness :
  scrollManagerRef openSession = Some 0 ∧ accepted id openSession ∧
  lockedCount (managers openSession) = 1 ∧
  lockedCount (managers (exec cleanupExisting (submitted openSession))) = 0 ∧
  lockedCount (managers (exec (handleSubmit id production) openSession)) ≤ 1.
Proof.
  destruct (at_most_one_locked_manager id (fillForm ++ [Submit production])
              production) as [_ H].
  destruct (H 0 eq_refl eq_refl) as (_ & H0 & H1).
  exact (conj eq_refl (conj eq_refl (conj eq_refl (conj H0 H1)))).
Defined.



(** C3: after the callback the manager is still Locked, live and
    referenced. *)
Lemma callback_leaves_manager_locked :
  let w := exec onClose openSession in
  scrollManagerRef w = Some 0 ∧
  managers w =
    [{| lockState := Locked; monitoring := true; inert := false |}].
Proof. split; reflexivity. Qed.

(** C4 at a first submission before the widget script has loaded. *)
Lemma widget_unavailable_witness :
  let w := run id fillForm initialWorld in
  let w' := exec (handleSubmit id productionNotLoaded) w in
  accepted id w ∧ safariplus productionNotLoaded = false ∧
  NODE_ENV productionNotLoaded ≠ "development" ∧
  isLoading w' = false ∧ isBookingDialogOpen w' = false ∧
  lockedCount (managers w') = 0 ∧ error w' = loadingMessage.
Proof.
  assert (NODE_ENV productionNotLoaded ≠ "development") as Hne by discriminate.
  destruct (widget_unavailable_rolls_back id fillForm productionNotLoaded
              eq_refl eq_refl Hne) as (_ & H1 & H2 & _ & _ & _ & H3 & H4 & _).
  exact (conj eq_refl (conj eq_refl (conj Hne (conj H1 (conj H2
           (conj H3 H4)))))).
Defined.



(** C7 at a submission of the empty form. *)
Lemma validation_failure_witness :
  rejected id initialWorld ∧
  ∃ msg, exec (handleSubmit id production) initialWorld =
    {| formData := formData initialWorld;
       isLoading := false;
       error := msg;
       currentBookingData := None;
       isBookingDialogOpen := false;
       scrollManagerRef := None;
       managers := [];
       log := [SetError msg; SetError ""; PreventDefault] |}
    ∧ (from (formData initialWorld) = "" → msg = "selectDepartureError").
Proof.
  split; [reflexivity|].
  exact (validation_failure_changes_only_error id production initialWorld
           eq_refl).
Defined.

(** C8: an input with a date in the past and no passenger is accepted and
    handed to the widget. *)
Lemma accepted_input_breaking_the_invariant :
  let w := run id [InputChange FieldFrom "mwanza"; InputChange FieldTo "kahama";
                   InputChange FieldDate "2020-01-01";
                   InputChange FieldPassengers "0"] initialWorld in
  let d := bookingData (formData w) in
  accepted id w ∧
  head (log (exec (handleSubmit id production) w)) =
    Some (CallOpenBookingDialog 0 d) ∧
  String.leb "2026-11-01" (departureDate d) = false ∧
  passengersCount d = Some 0%Z ∧
  ∀ today, ¬ TripRequestInvariant today d.
Proof.
  split; [reflexivity|]. split; [reflexivity|]. split; [reflexivity|].
  split; [reflexivity|].
  intros today (_ & _ & _ & _ & _ & n & Hn & Hpos).
  vm_compute in Hn. injection Hn as <-. lia.
Qed.

(** C8 at a submission of the filled form. *)
Lemma accepted_trip_request_witness :
  let w := run id fillForm initialWorld in
  let d := bookingData (formData w) in
  accepted id w ∧ passengers (formData w) ∈ passengerOptions ∧
  safariplus production = true ∧
  origin d ≠ destination d ∧
  (∃ n, passengersCount d = Some n ∧ (1 ≤ n ≤ 10)%Z) ∧
  head (log (exec (handleSubmit id production) w)) =
    Some (CallOpenBookingDialog 0 d).
Proof.
  assert (passengers (formData (run id fillForm initialWorld))
            ∈ passengerOptions) as Hin by (vm_compute; constructor).
  destruct (accepted_trip_request id (run id fillForm initialWorld) production
              eq_refl) as (_ & _ & H1 & _ & _ & _ & _ & H2 & H3).
  exact (conj eq_refl (conj Hin (conj eq_refl (conj H1
           (conj (H2 Hin) (H3 eq_refl)))))).
Defined.

(** C9: when the availability of the widget is checked, and through the
    whole submission when it is not available in production, scroll has not
    been disabled. *)
Lemma prepared_session_has_scroll_enabled :
  let w := run id fillForm initialWorld in
  let w1 := exec (cleanupExisting;; prepareSession) (submitted w) in
  accepted id w ∧
  (∀ i, CallDisableScroll i ∉ trace w1) ∧
  managers w1 = [ScrollManager.createInstance] ∧
  lockedCount (managers w1) = 0 ∧
  (∀ i, CallDisableScroll i ∉
          trace (exec (handleSubmit id productionNotLoaded) w)).
Proof.
  split; [reflexivity|].
  split; [intros i; by apply (not_in_trace isDisableScroll)|].
  split; [reflexivity|]. split; [reflexivity|].
  intros i; by apply (not_in_trace isDisableScroll).
Qed.

(** C9 at a first submission with the widget loaded. *)
Lemma prepare_session_witness :
  let w := run id fillForm initialWorld in
  let w1 := exec (cleanupExisting;; prepareSession) (submitted w) in
  accepted id w ∧ isLoading w1 = true ∧ isBookingDialogOpen w1 = true ∧
  scrollManagerRef w1 = Some 0 ∧ lockedCount (managers w1) = 0.
Proof.
  destruct (prepare_session_steps id fillForm production eq_refl)
    as (_ & H1 & H2 & _ & H3 & _ & H4 & _).
  exact (conj eq_refl (conj H1 (conj H2 (conj H3 H4)))).
Defined.

(** C10 at an unmount while the dialog is open. *)
Lemma unmount_witness :
  let w' := exec unmount openSession in
  scrollManagerRef openSession = Some 0 ∧
  scrollManagerRef w' = None ∧ lockedCount (managers w') = 0.
Proof.
  destruct (unmount_releases_lock id (fillForm ++ [Submit production]) 0
              eq_refl) as (_ & H1 & _ & _ & H2).
  exact (conj eq_refl (conj H1 H2)).
Defined.

(** ** Editing the form *)

Section Editing.

Context (t : string → string).

(** X1. [handleInputChange] writes the new value into the field named by
    the control and leaves the other three fields as they were; whatever
    the error message was, it is empty afterwards, and [setError] is called
    only when a message was showing.  Nothing of the session (loading,
    dialog flag, booking data, manager reference, instances) is touched. *)
Theorem input_change_sets_one_field (name : Field) (value : string)
    (w : World) :
  let w' := exec (handleInputChange name value) w in
  getField name (formData w') = value
  ∧ (∀ other, other ≠ name →
       getField other (formData w') = getField other (formData w))
  ∧ error w' = ""
  ∧ trace w' =
      trace w ++ SetFormData (formData w') ::
      (if Js.truthy (error w) then [SetError ""] else [])
  ∧ isLoading w' = isLoading w
  ∧ isBookingDialogOpen w' = isBookingDialogOpen w
  ∧ currentBookingData w' = currentBookingData w
  ∧ scrollManagerRef w' = scrollManagerRef w
  ∧ managers w' = managers w.
Proof.
  destruct w as [fd ld err bd dlg ref ms lg]. destruct err as [|c err].
  all: destruct name; run_actions; cbn [Js.truthy]; run_actions.
  all: split; [reflexivity|].
  all: split; [intros []; cbn; congruence|].
  all: split; [reflexivity|].
  all: split; [chronological; reflexivity|].
  all: by repeat split.
Qed.

End Editing.

(** ** What validation lets through *)

Lemma firstFailure_cases (fd : FormData) :
  firstFailure fd =
  if decide (from fd = "") then Some OriginPresent
  else if decide (to fd = "") then Some DestinationPresent
  else if decide (from fd = to fd) then Some CitiesDiffer
  else if decide (date fd = "") then Some DatePresent
  else if decide (passengers fd = "") then Some PassengersPresent
  else None.
Proof.
  destruct fd as [f t' d p].
  cbv [firstFailure List.find checksInOrder passes from to date passengers].
  repeat case_decide; subst; rewrite ?String.eqb_refl; cbn [negb]; try done.
  all: repeat match goal with
              | H : ?a ≠ ?b |- _ =>
                  apply String.eqb_neq in H; rewrite ?H; clear H
              end; cbn [negb]; try done.
Qed.

Section Acceptance.

Context (t : string → string).

(** X2. [validateForm] accepts an input exactly when origin, destination,
    date and passengers are non-empty strings and origin differs from
    destination.  Nothing else is looked at: not the translation in use,
    not the rest of the state, not what the strings contain (a city of one
    blank character passes). *)
Theorem validation_accepts_exactly (w : World) :
  (accepted t w ↔
     from (formData w) ≠ "" ∧ to (formData w) ≠ "" ∧
     from (formData w) ≠ to (formData w) ∧
     date (formData w) ≠ "" ∧ passengers (formData w) ≠ "")
  ∧ (∀ t' w', formData w' = formData w → accepted t w → accepted t' w')
  ∧ (∀ w', formData w' = {| from := " "; to := "x"; date := "?";
                            passengers := "-" |} → accepted t w').
Proof.
  assert (∀ t0 w0, accepted t0 w0 ↔
            from (formData w0) ≠ "" ∧ to (formData w0) ≠ "" ∧
            from (formData w0) ≠ to (formData w0) ∧
            date (formData w0) ≠ "" ∧ passengers (formData w0) ≠ "") as H.
  { intros t0 w0. rewrite accepted_firstFailure, firstFailure_cases.
    repeat case_decide; split; try done; intros (? & ? & ? & ? & ?); done. }
  split; [apply H|]. split.
  - intros t' w' Hfd. rewrite !H, Hfd. done.
  - intros w' Hfd. apply H. rewrite Hfd. cbn. repeat split; discriminate.
Qed.

End Acceptance.

(** ** The deep link and the popular routes *)

Lemma blank_default (param : option string) :
  blank param ↔ default "" param = "".
Proof.
  unfold blank. destruct param as [s|]; cbn; split; try tauto.
  - intros [|[= ->]]; done.
  - intros ->. by right.
Qed.

Lemma truthy_default (param : option string) :
  Js.truthy (default "" param) = true ↔ ¬ blank param.
Proof.
  rewrite blank_default. by destruct (default "" param).
Qed.

Section Prefill.

Context (t : string → string).

(** X3. The effect that reads the URL does nothing at all when neither
    [from] nor [to] is given (absent or empty): the form is untouched and
    the address is not rewritten.  When one of them is given, both cities
    are overwritten, an absent one with the empty string; the date becomes
    today, the passenger count is kept, and the address is rewritten
    once. *)
Theorem url_prefill_effect (fromParam toParam : option string)
    (today : string) (w : World) :
  let w' := exec (urlPrefill fromParam toParam today) w in
  (blank fromParam ∧ blank toParam → w' = w)
  ∧ (¬ (blank fromParam ∧ blank toParam) →
     formData w' =
       {| from := default "" fromParam; to := default "" toParam;
          date := today; passengers := passengers (formData w) |}
     ∧ trace w' = trace w ++ [SetFormData (formData w'); ReplaceState]
     ∧ error w' = error w ∧ isLoading w' = isLoading w
     ∧ scrollManagerRef w' = scrollManagerRef w
     ∧ managers w' = managers w).
Proof.
  intros w'. subst w'. destruct w as [fd ld err bd dlg ref ms lg]. split.
  - intros [Hf Ht]. apply blank_default in Hf, Ht.
    run_actions. by rewrite Hf, Ht.
  - intros Hn.
    assert (Js.truthy (default "" fromParam)
            || Js.truthy (default "" toParam) = true) as Hc.
    { apply orb_true_iff.
      destruct (Js.truthy (default "" fromParam)) eqn:Ef; [by left|right].
      apply truthy_default. intros Ht. apply Hn. split; [|done].
      apply blank_default. by destruct (default "" fromParam). }
    run_actions. rewrite Hc. run_actions. chronological. by repeat split.
Qed.

(** X4. Submitting right after a deep link: with two different non-empty
    cities (and a date, and the passenger count kept from before) the form
    passes validation; with [from] missing the message is that of
    "selectDepartureError", with only [to] missing that of
    "selectDestinationError", and with twice the same city that of
    "differentCitiesError". *)
Theorem deep_link_submission (env : Env) (fromParam toParam : option string)
    (today : string) (w : World) :
  let w' := exec (urlPrefill fromParam toParam today) w in
  let f := default "" fromParam in
  let t' := default "" toParam in
  ¬ (blank fromParam ∧ blank toParam) →
  today ≠ "" →
  passengers (formData w) ≠ "" →
  (f ≠ "" → t' ≠ "" → f ≠ t' → accepted t w')
  ∧ (f = "" → error (exec (handleSubmit t env) w') = t "selectDepartureError")
  ∧ (f ≠ "" → t' = "" →
     error (exec (handleSubmit t env) w') = t "selectDestinationError")
  ∧ (f = t' →
     error (exec (handleSubmit t env) w') = t "differentCitiesError").
Proof.
  intros w' f t' Hn Htoday Hp.
  assert (formData w' =
            {| from := f; to := t'; date := today;
               passengers := passengers (formData w) |}) as Hfd.
  { subst w' f t'. destruct w as [fd ld err bd dlg ref ms lg].
    assert (Js.truthy (default "" fromParam)
            || Js.truthy (default "" toParam) = true) as Hc.
    { apply orb_true_iff.
      destruct (Js.truthy (default "" fromParam)) eqn:Ef; [by left|right].
      apply truthy_default. intros Ht. apply Hn. split; [|done].
      apply blank_default. by destruct (default "" fromParam). }
    run_actions. rewrite Hc. reflexivity. }
  assert (f ≠ "" ∨ t' ≠ "") as Hone.
  { destruct (decide (f = "")) as [Hf|]; [|by left]. right. intros Ht.
    apply Hn. by rewrite !blank_default. }
  pose proof (firstFailure_cases (formData w')) as Hff.
  rewrite Hfd in Hff. cbn [from to date passengers] in Hff.
  assert (∀ c, firstFailure (formData w') = Some c →
               error (exec (handleSubmit t env) w') = t (messageKey c)) as Herr.
  { intros c Hc. unfold exec. by rewrite (handleSubmit_rejected t env w' c Hc). }
  rewrite Hfd in Herr.
  repeat split.
  - intros Hf Ht Hft. apply accepted_firstFailure. rewrite Hfd, Hff.
    repeat case_decide; congruence.
  - intros Hf. apply (Herr OriginPresent). rewrite Hff.
    repeat case_decide; congruence.
  - intros Hf Ht. apply (Herr DestinationPresent). rewrite Hff.
    repeat case_decide; congruence.
  - intros Hft. apply (Herr CitiesDiffer). rewrite Hff.
    assert (f ≠ "" ∧ t' ≠ "") as [Hf Ht] by (destruct Hone; split; congruence).
    repeat case_decide; congruence.
Qed.

(** X5. Each of the three popular-route buttons fills in two different
    cities that are both options of the city controls, sets the date to
    today and clears the error message; with the passenger count kept from
    before, the form then passes validation. *)
Theorem quick_link_is_ready_to_submit (f t' today : string) (w : World) :
  (f, t') ∈ quickRoutes →
  today ≠ "" →
  passengers (formData w) ≠ "" →
  let w' := exec (quickLink f t' today) w in
  formData w' = {| from := f; to := t'; date := today;
                   passengers := passengers (formData w) |}
  ∧ error w' = ""
  ∧ f ∈ popularRoutes ∧ t' ∈ popularRoutes
  ∧ accepted t w'.
Proof.
  intros Hin Htoday Hp w'.
  assert (formData w' = {| from := f; to := t'; date := today;
                           passengers := passengers (formData w) |}) as Hfd.
  { by destruct w. }
  split; [exact Hfd|]. split; [by destruct w|].
  assert (f ≠ "" ∧ t' ≠ "" ∧ f ≠ t' ∧ f ∈ popularRoutes ∧ t' ∈ popularRoutes)
    as (Hf & Ht & Hft & Hfo & Hto).
  { unfold quickRoutes, popularRoutes in *.
    repeat (apply elem_of_cons in Hin as [[= -> ->]|Hin];
            [split; [discriminate|]; split; [discriminate|];
             split; [discriminate|]; split; repeat constructor|]).
    by apply elem_of_nil in Hin. }
  split; [done|]. split; [done|].
  apply accepted_firstFailure. rewrite Hfd, firstFailure_cases.
  cbn [from to date passengers]. repeat case_decide; congruence.
Qed.

End Prefill.

(** ** Errors of a submission *)

Lemma elem_of_trace (e : Effect) (w : World) : e ∈ trace w ↔ e ∈ log w.
Proof. unfold trace. rewrite !list_elem_of_In. symmetry. apply in_rev. Qed.

Section Errors.

Context (t : string → string).

(** X6. A rejection of the opened dialog with a value the [catch] block
    cannot read leaves the session open.  For an accepted input with the
    widget loaded, when the awaited dialog is rejected with [undefined] or
    [null], or with a value whose message is odd, the [catch] block logs the
    value and fails with a [TypeError]: [cleanup()] is not called, the
    reference is kept, and loading, the dialog flag and the booking data
    stay set; no error message is shown. *)
Theorem unreadable_rejection_leaves_session_open (evs : list Event)
    (env : Env) (v : Js.Thrown) :
  let w := run t evs initialWorld in
  accepted t w →
  safariplus env = true →
  v = Js.Nullish ∨ v = Js.OddMessage →
  let n := length (managers w) in
  let d := bookingData (formData w) in
  let w1 := exec (handleSubmit t env) w in
  let w2 := exec (catchThrown v) w1 in
  (∃ err, (catchThrown v w1).1 = Throw err)
  ∧ trace w2 = trace w1 ++ [ConsoleErrorValue v]
  ∧ head (log w1) = Some (CallOpenBookingDialog n d)
  ∧ isLoading w2 = true
  ∧ isBookingDialogOpen w2 = true
  ∧ currentBookingData w2 = Some d
  ∧ scrollManagerRef w2 = Some n
  ∧ managers w2 = managers w1
  ∧ error w2 = "".
Proof.
  intros w Hacc Hsp Hv n d w1 w2. subst w2 w1 n d. unfold exec.
  rewrite (handleSubmit_accepted t env w Hacc). clear Hacc. clearbody w.
  destruct w as [fd ld err bd dlg ref ms lg], env as [sp ne].
  cbn in Hsp. subst sp. unfold session, submitted.
  destruct Hv as [-> | ->]; run_handler; absurd_branch.
  all: chronological; cbn [head]; rewrite ?length_alter.
  all: split; [by eexists|]. all: by repeat split.
Qed.

(** X8. [NODE_ENV] matters only while the widget is not loaded, and then
    only whether it is "development": two environments that agree on the
    widget, and on that when it is not loaded, give the same submission. *)
Theorem node_env_only_selects_the_mock (env env' : Env) (w : World) :
  safariplus env = safariplus env' →
  (safariplus env = false →
   (NODE_ENV env = "development" ↔ NODE_ENV env' = "development")) →
  handleSubmit t env w = handleSubmit t env' w.
Proof.
  destruct env as [sp ne], env' as [sp' ne']. cbn. intros <- Hdev.
  destruct w as [fd ld err bd dlg ref ms lg].
  destruct sp.
  - run_handler; absurd_branch; reflexivity.
  - specialize (Hdev eq_refl).
    destruct (String.eqb_spec ne "development") as [E|E],
             (String.eqb_spec ne' "development") as [E'|E']; try tauto.
    all: apply String.eqb_eq in E || apply String.eqb_neq in E.
    all: apply String.eqb_eq in E' || apply String.eqb_neq in E'.
    all: run_actions; rewrite ?E, ?E'; run_handler; absurd_branch;
      try reflexivity.
Qed.

End Errors.

(** ** The development mock *)

Section Mock.

Context (t : string → string).

(** X9. The mock timer resolves whatever session is open when it fires: in
    any reachable world it shows the mock dialog with the form values of
    the submission that set it, calls [enableScroll()] and [cleanup()] on
    the manager referenced at that moment (which need not be the one of
    that submission), and sets loading and the dialog flag to false and
    clears the booking data.  No instance is Locked afterwards.  It keeps
    the reference, the error message and the form as they are. *)
Theorem mock_timer_resolves_current_session (evs : list Event)
    (fd : FormData) :
  let w := run t evs initialWorld in
  let w' := exec (mockTimeout fd) w in
  trace w' =
    trace w ++ [Alert (mockMessage fd)] ++
    match scrollManagerRef w with
    | Some i => [CallEnableScroll i; CallCleanup i]
    | None => []
    end ++
    [SetIsLoading false; SetIsBookingDialogOpen false;
     SetCurrentBookingData None]
  ∧ resolved w'
  ∧ scrollManagerRef w' = scrollManagerRef w
  ∧ error w' = error w
  ∧ formData w' = formData w.
Proof.
  intros w w'. pose proof (Inv_reachable t evs) as HI. fold w in HI.
  subst w'. clearbody w. destruct HI as (HS & HL & _).
  destruct w as [fd0 ld err bd dlg ref ms lg].
  unfold SingleLock in HL. cbn in HS, HL. unfold resolved.
  run_handler; chronological; cbn.
  all: repeat split; auto 6 with locks.
Qed.

(** X10. A development session from start to end.  For an accepted input,
    without the widget and with [NODE_ENV] "development", [handleSubmit]
    shows no error, sets loading, disables scroll on the new manager and
    sets a timer of 1500 ms; the widget is not involved.  When that timer
    fires next, the session is over: nothing is loading, nothing is Locked,
    the new manager is inert and still referenced, and form and error
    message are as the submission left them. *)
Theorem development_mock_session (evs : list Event) (env : Env) :
  let w := run t evs initialWorld in
  accepted t w →
  safariplus env = false →
  NODE_ENV env = "development" →
  let n := length (managers w) in
  let d := bookingData (formData w) in
  let w1 := exec (handleSubmit t env) w in
  let w2 := exec (mockTimeout (formData w)) w1 in
  trace w1 =
    trace w ++ [PreventDefault; SetError ""] ++
    match scrollManagerRef w with Some i => [CallCleanup i] | None => [] end ++
    [CallCreateInstance n; SetIsLoading true; SetIsBookingDialogOpen true;
     SetCurrentBookingData (Some d); CallDisableScroll n; SetTimeout 1500]
  ∧ isLoading w1 = true ∧ error w1 = ""
  ∧ scrollManagerRef w1 = Some n
  ∧ managers w1 !! n =
      Some {| lockState := Locked; monitoring := false; inert := false |}
  ∧ trace w2 =
      trace w1 ++
      [Alert (mockMessage (formData w)); CallEnableScroll n; CallCleanup n;
       SetIsLoading false; SetIsBookingDialogOpen false;
       SetCurrentBookingData None]
  ∧ resolved w2
  ∧ scrollManagerRef w2 = Some n
  ∧ managers w2 !! n =
      Some {| lockState := Unlocked; monitoring := false; inert := true |}
  ∧ formData w2 = formData w ∧ error w2 = "".
Proof.
  intros w Hacc Hsp Hdev n d w1 w2.
  pose proof (Inv_reachable t evs) as HI. fold w in HI.
  pose proof (Inv_AllUnlocked_after_cleanup w HI) as HC.
  subst w2 w1 n d. unfold exec. rewrite (handleSubmit_accepted t env w Hacc).
  destruct HI as (HS & _ & _). clear Hacc. clearbody w.
  destruct w as [fd ld err bd dlg ref ms lg], env as [sp ne].
  cbn in Hsp, Hdev, HC, HS. subst sp ne. unfold session, submitted, resolved.
  run_handler; absurd_branch.
  all: chronological; cbn [managers isLoading isBookingDialogOpen
                             currentBookingData].
  all: repeat split; try done.
  all: try (rewrite ?list_lookup_alter_eq;
            erewrite lookup_created by (by rewrite ?length_alter);
            reflexivity).
  all: auto 10 with locks.
Qed.

End Mock.

(** ** What the component keeps in every reachable world *)

Lemma method_inert f m : Method f → inert (f m) = false → inert m = false.
Proof.
  intros Hf H. destruct (inert m) eqn:E; [|done].
  by rewrite (inert_method f m Hf E), E in H.
Qed.

Lemma OrphanFree_alter f i r ms :
  Method f → OrphanFree r ms → OrphanFree r (alter f i ms).
Proof.
  intros Hf H j m Hj Hm. destruct (decide (i = j)) as [->|Hne].
  - rewrite list_lookup_alter_eq in Hj.
    destruct (ms !! j) as [m0|] eqn:E; [|done]. cbn in Hj.
    injection Hj as <-. apply (H j m0 E). by eapply method_inert.
  - rewrite list_lookup_alter_ne in Hj by done. by apply (H j m).
Qed.

Lemma OrphanFree_cleanup k ms :
  OrphanFree (Some k) ms → OrphanFree None (alter ScrollManager.cleanup k ms).
Proof.
  intros H j m Hj Hm. destruct (decide (k = j)) as [->|Hne].
  - rewrite list_lookup_alter_eq in Hj.
    destruct (ms !! j) as [m0|] eqn:E; [|done]. cbn in Hj.
    injection Hj as <-. by rewrite cleanup_inert in Hm.
  - rewrite list_lookup_alter_ne in Hj by done.
    specialize (H j m Hj Hm). congruence.
Qed.

Lemma OrphanFree_create (ms ms' : list Manager) (m : Manager) :
  length ms' = length ms → OrphanFree None ms' →
  OrphanFree (Some (length ms)) (ms' ++ [m]).
Proof.
  intros Hlen H j x Hj Hx. apply lookup_app_Some in Hj as [Hj|[Hge Hj]].
  - by specialize (H j x Hj Hx).
  - apply list_lookup_singleton_Some in Hj as [Hj _]. f_equal. lia.
Qed.

Lemma OrphanFree_None r ms : OrphanFree None ms → OrphanFree r ms.
Proof. intros H j m Hj Hm. by specialize (H j m Hj Hm). Qed.

Lemma OrphanFree_before_create r ms :
  OrphanFree r ms →
  OrphanFree None
    match r with
    | Some k => alter ScrollManager.cleanup k ms
    | None => ms
    end.
Proof. destruct r; [apply OrphanFree_cleanup|done]. Qed.

#[local] Hint Resolve OrphanFree_alter OrphanFree_cleanup OrphanFree_None
  : locks.

Section Kept.

Context (t : string → string).


Lemma OrphanFree_step ev w :
  OrphanFree (scrollManagerRef w) (managers w) →
  OrphanFree (scrollManagerRef (step t ev w)) (managers (step t ev w)).
Proof.
  intros H. pose proof (OrphanFree_before_create _ _ H) as HC.
  destruct w as [fd ld err bd dlg ref ms lg]. cbn in H, HC.
  destruct ev; run_handler; absurd_branch; cbn [scrollManagerRef managers].
  all: auto with locks.
  all: try apply OrphanFree_cleanup.
  all: repeat apply OrphanFree_alter; auto with locks.
  all: apply OrphanFree_create; by rewrite ?length_alter.
Qed.

Lemma Tracked_step ev w : Tracked w → Tracked (step t ev w).
Proof.
  intros [Ha Hb]. destruct w as [fd ld err bd dlg ref ms lg].
  cbn in Ha, Hb. unfold Tracked.
  destruct ev; run_handler; absurd_branch;
    cbn [scrollManagerRef managers log].
  all: split; intros j; specialize (Ha j); specialize (Hb j).
  all: rewrite ?elem_of_cons, ?length_alter, ?length_app, ?length_alter.
  all: cbn [length].
  all: try exact Ha; try exact Hb.
  all: try (rewrite Ha; split;
            [ intros H; destruct_or!; simplify_eq; lia
            | intros H; destruct (decide (j = length ms)) as [->|Hne];
              solve [repeat first [by left | right]; lia] ]).
  all: intros Hj; destruct (decide (j = length ms)) as [->|Hne]; try lia.
  all: try solve [repeat first [by left | right]].
  all: destruct Hb as [Hb|Hb]; [lia|simplify_eq|];
         solve [repeat first [by left | right]; done].
Qed.


(** X12. The component never loses a manager.  In every reachable world
    the instances created are exactly those numbered below the count of
    instances, each of them is the referenced one or has had [cleanup()]
    called on it, and an instance that is not referenced is inert. *)
Theorem no_manager_is_orphaned (evs : list Event) (i : nat) :
  let w := run t evs initialWorld in
  (CallCreateInstance i ∈ trace w ↔ i < length (managers w))
  ∧ (CallCreateInstance i ∈ trace w →
     scrollManagerRef w = Some i ∨ CallCleanup i ∈ trace w)
  ∧ (∀ m, managers w !! i = Some m → inert m = false →
          scrollManagerRef w = Some i).
Proof.
  intros w. rewrite !elem_of_trace.
  assert (Tracked w ∧ OrphanFree (scrollManagerRef w) (managers w))
    as [[Ha Hb] Ho].
  { subst w.
    assert (Tracked initialWorld ∧
            OrphanFree (scrollManagerRef initialWorld)
              (managers initialWorld)) as H0.
    { split; [split|]; cbn.
      - intros j. rewrite elem_of_nil. lia.
      - intros j Hj. lia.
      - by intros j m Hj. }
    revert H0. generalize initialWorld.
    induction evs as [|ev evs IH]; intros w0 [H0 H0']; [done|].
    cbn. apply IH. split; [by apply Tracked_step|by apply OrphanFree_step]. }
  split; [apply Ha|]. split.
  - intros Hc. apply Hb, Ha, Hc.
  - intros m. apply Ho.
Qed.

(** X13. Unmounting twice is unmounting once, and without a referenced
    manager unmounting does nothing. *)
Theorem unmount_is_idempotent (w : World) :
  exec unmount (exec unmount w) = exec unmount w
  ∧ (scrollManagerRef w = None → exec unmount w = w).
Proof.
  destruct w as [fd ld err bd dlg ref ms lg].
  split; [by destruct ref|]. cbn. by intros ->.
Qed.

End Kept.

(** ** The further properties on concrete sessions *)

(** X1 at the choice of a destination in the empty form. *)
Lemma input_change_witness :
  let w' := exec (handleInputChange FieldTo "kahama") initialWorld in
  FieldPassengers ≠ FieldTo ∧
  getField FieldTo (formData w') = "kahama" ∧
  getField FieldPassengers (formData w') = "1".
Proof.
  assert (FieldPassengers ≠ FieldTo) as Hne by discriminate.
  destruct (input_change_sets_one_field FieldTo "kahama" initialWorld)
    as (H1 & H2 & _).
  exact (conj Hne (conj H1 (H2 FieldPassengers Hne))).
Defined.

(** X2 at the filled form. *)
Lemma validation_accepts_witness :
  accepted id (run id fillForm initialWorld).
Proof.
  destruct (validation_accepts_exactly id (run id fillForm initialWorld))
    as [H _].
  apply H. repeat split; discriminate.
Defined.

(** X3 at an address with an empty [to] and no [from]. *)
Lemma url_prefill_witness :
  blank None ∧ blank (Some "") ∧
  exec (urlPrefill None (Some "") "2026-11-02") initialWorld = initialWorld.
Proof.
  assert (blank None ∧ blank (Some "")) as Hb.
  { split; [by left|by right]. }
  destruct (url_prefill_effect None (Some "") "2026-11-02" initialWorld)
    as [H _].
  exact (conj (proj1 Hb) (conj (proj2 Hb) (H Hb))).
Defined.

(** X4 at a deep link from Mwanza to Kahama. *)
Lemma deep_link_witness :
  accepted id
    (exec (urlPrefill (Some "mwanza") (Some "kahama") "2026-11-02")
       initialWorld).
Proof.
  assert (¬ (blank (Some "mwanza") ∧ blank (Some "kahama"))) as Hn.
  { intros [[H|H] _]; discriminate H. }
  assert ("2026-11-02" ≠ "") as Hd by discriminate.
  assert (passengers (formData initialWorld) ≠ "") as Hp by discriminate.
  destruct (deep_link_submission id production (Some "mwanza")
              (Some "kahama") "2026-11-02" initialWorld Hn Hd Hp) as [H _].
  apply H; discriminate.
Defined.

(** X5 at the button Mwanza - Kahama. *)
Lemma quick_link_witness :
  ("mwanza", "kahama") ∈ quickRoutes ∧
  accepted id (exec (quickLink "mwanza" "kahama" "2026-11-02") initialWorld).
Proof.
  assert (("mwanza", "kahama") ∈ quickRoutes) as Hin by repeat constructor.
  assert ("2026-11-02" ≠ "") as Hd by discriminate.
  assert (passengers (formData initialWorld) ≠ "") as Hp by discriminate.
  destruct (quick_link_is_ready_to_submit id "mwanza" "kahama" "2026-11-02"
              initialWorld Hin Hd Hp) as (_ & _ & _ & _ & H).
  exact (conj Hin H).
Defined.

(** X6 at a dialog rejected without a reason. *)
Lemma unreadable_rejection_witness :
  let w := run id fillForm initialWorld in
  let w2 := run id [Submit production; DialogRejected Js.Nullish] w in
  accepted id w ∧ safariplus production = true ∧
  isLoading w2 = true ∧ isBookingDialogOpen w2 = true ∧
  scrollManagerRef w2 = Some 0 ∧ error w2 = "".
Proof.
  destruct (unreadable_rejection_leaves_session_open id fillForm production
              Js.Nullish eq_refl eq_refl (or_introl eq_refl))
    as (_ & _ & _ & H1 & H2 & _ & H3 & _ & H4).
  exact (conj eq_refl (conj eq_refl (conj H1 (conj H2 (conj H3 H4))))).
Defined.

(** X8 at a test build with the widget loaded. *)
Lemma node_env_witness :
  let env' := {| safariplus := true; NODE_ENV := "test" |} in
  handleSubmit id production (run id fillForm initialWorld) =
  handleSubmit id env' (run id fillForm initialWorld).
Proof.
  intros env'.
  apply (node_env_only_selects_the_mock id production env'); [reflexivity|].
  intros H. discriminate H.
Defined.

(** X10 at a first submission in development. *)
Lemma development_mock_witness :
  let w := run id fillForm initialWorld in
  let w2 := run id [Submit development; MockTimeout (formData w)] w in
  accepted id w ∧ resolved w2 ∧ scrollManagerRef w2 = Some 0 ∧
  error w2 = "".
Proof.
  destruct (development_mock_session id fillForm development
              eq_refl eq_refl eq_refl)
    as (_ & _ & _ & _ & _ & _ & H1 & H2 & _ & _ & H3).
  exact (conj eq_refl (conj H1 (conj H2 H3))).
Defined.

(** X12 at a second submission while the first dialog is open. *)
Lemma no_manager_is_orphaned_witness :
  let w := run id (fillForm ++ [Submit production; Submit production])
             initialWorld in
  0 < length (managers w) ∧
  (scrollManagerRef w = Some 0 ∨ CallCleanup 0 ∈ trace w).
Proof.
  intros w. assert (0 < length (managers w)) as Hlt by (vm_compute; lia).
  destruct (no_manager_is_orphaned id
              (fillForm ++ [Submit production; Submit production]) 0)
    as (Ha & Hb & _).
  exact (conj Hlt (Hb (proj2 Ha Hlt))).
Defined.

(** X13 at the component that never submitted. *)
Lemma unmount_idempotent_witness :
  scrollManagerRef initialWorld = None ∧
  exec unmount initialWorld = initialWorld.
Proof.
  destruct (unmount_is_idempotent initialWorld) as [_ H].
  exact (conj eq_refl (H eq_refl)).
Defined.
